(** * The training pipeline runner

    A shallow embedding of [pipeline/training_pipeline.py]:

<<
    from src.data_processing import DataProcessing
    from src.model_training import Model_Training

    if __name__ == "__main__":
        data_processor = DataProcessing("artifacts/raw/data.csv")
        data_processor.run()

        trainer =  Model_Training()
        trainer.run()
>>

    The two classes live in modules that are not part of this file; they are
    kept opaque.  Every operation the script performs on them (the two
    imports, the two constructor calls, the two [run] calls) is a function of
    an environment record that may change the outside world, return an
    object, or raise.  The script itself is written in a small monad that
    threads the world and a log of the calls the script makes, and in which
    a raised exception skips the rest of the statements.  The world is kept
    when an exception is raised: what a collaborator did before it failed
    stays done. *)

From Stdlib Require Import String List ZArith Bool Lia.
Import ListNotations.
Local Open Scope string_scope.
Local Open Scope list_scope.

(** ** Exceptions and the interpreter's exit status *)

(** The argument of [SystemExit]: [sys.exit()] gives [None], [sys.exit(3)]
    an integer, [sys.exit("msg")] any other object. *)
Inductive exit_code : Type :=
| CodeNone
| CodeInt (n : Z)
| CodeObject (repr : string).

(** A raised exception.  [SystemExit] is singled out because the
    interpreter treats it differently when nothing catches it; every other
    exception is kept by class name and message. *)
Inductive exn : Type :=
| SystemExit (code : exit_code)
| PyExc (cls : string) (msg : string).

Definition is_SystemExit (e : exn) : bool :=
  match e with
  | SystemExit _ => true
  | PyExc _ _ => false
  end.

(** The status of a process that ends on an uncaught [SystemExit].  No
    code is status zero; an object that is not an integer is printed and
    the status is one.  An integer code is converted to a C integer (minus
    one when it does not fit in 64 bits) and handed to [exit], and the
    parent process sees its low eight bits: [sys.exit(256)] ends with
    status 0, [sys.exit(-1)] and [sys.exit(2**64)] with status 255. *)
Definition systemexit_status (c : exit_code) : Z :=
  match c with
  | CodeNone => 0
  | CodeInt n =>
      if (- 2 ^ 63 <=? n)%Z && (n <? 2 ^ 63)%Z then (n mod 256)%Z else 255
  | CodeObject _ => 1
  end.

(** How the process ends: by [exit] with a status, or killed by a signal. *)
Inductive termination : Type :=
| Exits (status : Z)
| Killed_by (signal : Z).

Definition SIGINT : Z := 2.

(** What the interpreter does once the module has been executed.  [cls] is
    the class of the exception as a traceback names it, so that
    ["KeyboardInterrupt"] is the built-in class: left uncaught, it makes the
    interpreter end the process by sending [SIGINT] to itself.  Any other
    uncaught exception but [SystemExit] prints the traceback and exits
    with status one. *)
Definition termination_of {A : Type} (r : exn + A) : termination :=
  match r with
  | inr _ => Exits 0
  | inl (SystemExit c) => Exits (systemexit_status c)
  | inl (PyExc cls _) =>
      if String.eqb cls "KeyboardInterrupt" then Killed_by SIGINT else Exits 1
  end.

(** The status as the shell that started the process reports it: the
    status given to [exit], or 128 plus the number of the signal. *)
Definition shell_status (t : termination) : Z :=
  match t with
  | Exits status => status
  | Killed_by signal => 128 + signal
  end.

(** The status the process ends with: zero when the module ran to its end,
    not zero for an uncaught exception other than [SystemExit], and for
    [SystemExit] the status its code gives. *)
Definition exit_status {A : Type} (r : exn + A) : Z :=
  shell_status (termination_of r).

(** ** Calls made by the script, and the log of them *)

Section Runner.

(** [world] is everything outside the script (files, loaded modules, the
    state of the collaborators); [pyobj] is the type of Python values. *)
Variable world : Type.
Variable pyobj : Type.

(** The six places where the script hands control to other code. *)
Inductive op : Type :=
| Import_data_processing              (* line 1 *)
| Import_model_training               (* line 2 *)
| New_DataProcessing (path : string)  (* line 5: DataProcessing(path) *)
| Run_data_processor (self : pyobj)   (* line 6: data_processor.run() *)
| New_Model_Training                  (* line 8: Model_Training() *)
| Run_trainer (self : pyobj).         (* line 9: trainer.run() *)

(** What the log records: control handed over at a call site, and how it
    came back (an import binds a name and yields no value of its own). *)
Inductive event : Type :=
| Call (o : op)
| Returned (o : op) (v : pyobj)
| Imported (o : op)
| Raised (o : op) (e : exn).

Definition trace : Type := list event.

(** The result of handing control to other code: the new world, and either
    the exception that came out or the value returned. *)
Definition outcome (A : Type) : Type := (world * (exn + A))%type.

(** The opaque collaborators. *)
Record Collaborators : Type := {
  import_data_processing : world -> outcome unit;
  import_model_training : world -> outcome unit;
  DataProcessing : string -> world -> outcome pyobj;
  DataProcessing_run : pyobj -> world -> outcome pyobj;
  Model_Training : world -> outcome pyobj;
  Model_Training_run : pyobj -> world -> outcome pyobj
}.

(** ** The monad of the script *)

Record state : Type := {
  st_world : world;
  st_trace : trace
}.

Definition Py (A : Type) : Type := state -> state * (exn + A).

Definition ret {A : Type} (a : A) : Py A := fun s => (s, inr a).

Definition bind {A B : Type} (c : Py A) (k : A -> Py B) : Py B :=
  fun s =>
    match c s with
    | (s', inl e) => (s', inl e)
    | (s', inr a) => k a s'
    end.

Notation "x <- c ;; k" := (bind c (fun x => k))
  (at level 61, c at next level, right associativity).
Notation "c ;; k" := (bind c (fun _ => k))
  (at level 61, right associativity).

(** Hand control to [f] at call site [o]: log the call, run [f] on the
    current world, keep the world it leaves, and log how it came back
    ([done] makes the log entry of a normal return). *)
Definition perform {A : Type} (o : op) (done : A -> event)
    (f : world -> outcome A) : Py A :=
  fun s =>
    match f (st_world s) with
    | (w', inl e) =>
        ({| st_world := w'; st_trace := st_trace s ++ [Call o; Raised o e] |}, inl e)
    | (w', inr a) =>
        ({| st_world := w'; st_trace := st_trace s ++ [Call o; done a] |}, inr a)
    end.

(** A call expression [f(...)] or [x.run()]. *)
Definition call (o : op) (f : world -> outcome pyobj) : Py pyobj :=
  perform o (Returned o) f.

(** A statement [from m import X]. *)
Definition import_ (o : op) (f : world -> outcome unit) : Py unit :=
  perform o (fun _ => Imported o) f.

(** ** The script *)

Variable env : Collaborators.

(** The body of the [if]: lines 5 to 9. *)
Definition main_block : Py unit :=
  data_processor <- call (New_DataProcessing "artifacts/raw/data.csv")
                         (DataProcessing env "artifacts/raw/data.csv") ;;
  call (Run_data_processor data_processor)
       (DataProcessing_run env data_processor) ;;
  trainer <- call New_Model_Training (Model_Training env) ;;
  call (Run_trainer trainer) (Model_Training_run env trainer) ;;
  ret tt.

(** The whole module, executed with [__name__] bound to [name]. *)
Definition training_pipeline (name : string) : Py unit :=
  import_ Import_data_processing (import_data_processing env) ;;
  import_ Import_model_training (import_model_training env) ;;
  if String.eqb name "__main__" then main_block else ret tt.

(** Running the module from a given world, with an empty log. *)
Definition execute (name : string) (w : world) : state * (exn + unit) :=
  training_pipeline name {| st_world := w; st_trace := [] |}.

Definition trace_of (name : string) (w : world) : trace :=
  st_trace (fst (execute name w)).

Definition world_of (name : string) (w : world) : world :=
  st_world (fst (execute name w)).

Definition result_of (name : string) (w : world) : exn + unit :=
  snd (execute name w).

End Runner.

Arguments Call {pyobj} o.
Arguments Returned {pyobj} o v.
Arguments Imported {pyobj} o.
Arguments Raised {pyobj} o e.
Arguments Import_data_processing {pyobj}.
Arguments Import_model_training {pyobj}.
Arguments New_DataProcessing {pyobj} path.
Arguments Run_data_processor {pyobj} self.
Arguments New_Model_Training {pyobj}.
Arguments Run_trainer {pyobj} self.
Arguments st_world {world pyobj} s.
Arguments st_trace {world pyobj} s.
Arguments import_data_processing {world pyobj} c w.
Arguments import_model_training {world pyobj} c w.
Arguments DataProcessing {world pyobj} c path w.
Arguments DataProcessing_run {world pyobj} c self w.
Arguments Model_Training {world pyobj} c w.
Arguments Model_Training_run {world pyobj} c self w.
Arguments perform {world pyobj A} o done f s.
Arguments execute {world pyobj} env name w.
Arguments trace_of {world pyobj} env name w.
Arguments world_of {world pyobj} env name w.
Arguments result_of {world pyobj} env name w.

(** ** Reading the log *)

Section Observations.

Context {pyobj : Type}.

Definition op_of (ev : event pyobj) : op pyobj :=
  match ev with
  | Call o | Returned o _ | Imported o | Raised o _ => o
  end.

(** The call sites by what they act on. *)
Definition is_import (o : op pyobj) : bool :=
  match o with
  | Import_data_processing | Import_model_training => true
  | _ => false
  end.

Definition on_training (o : op pyobj) : bool :=
  match o with
  | New_Model_Training | Run_trainer _ => true
  | _ => false
  end.

Definition is_run (o : op pyobj) : bool :=
  match o with
  | Run_data_processor _ | Run_trainer _ => true
  | _ => false
  end.

(** Particular entries of the log. *)
Definition calls_DataProcessing (ev : event pyobj) : bool :=
  match ev with
  | Call (New_DataProcessing _) => true
  | _ => false
  end.

Definition calls_data_processor_run (ev : event pyobj) : bool :=
  match ev with
  | Call (Run_data_processor _) => true
  | _ => false
  end.

Definition calls_trainer_run (ev : event pyobj) : bool :=
  match ev with
  | Call (Run_trainer _) => true
  | _ => false
  end.

Definition data_processor_run_returned (ev : event pyobj) : bool :=
  match ev with
  | Returned (Run_data_processor _) _ => true
  | _ => false
  end.

(** Training has begun at [ev]: the class is being instantiated or the
    trainer's [run] is being entered. *)
Definition starts_training (ev : event pyobj) : bool :=
  match ev with
  | Call o => on_training o
  | _ => false
  end.

Definition count (p : event pyobj -> bool) (t : list (event pyobj)) : nat :=
  length (filter p t).

(** What the log holds after the first return of [data_processor.run()]
    (nothing, when it never returned). *)
Fixpoint after_data_processor_run (t : list (event pyobj)) : list (event pyobj) :=
  match t with
  | [] => []
  | ev :: rest =>
      if data_processor_run_returned ev then rest
      else after_data_processor_run rest
  end.

(** No [q] entry comes before the first [p] entry of the log. *)
Fixpoint guarded_by (p q : event pyobj -> bool) (t : list (event pyobj)) : bool :=
  match t with
  | [] => true
  | ev :: rest =>
      if q ev then false
      else if p ev then true
      else guarded_by p q rest
  end.

End Observations.

(** ** Call sites and raises in the log *)

Section Sites.

Context {pyobj : Type}.

(** Two operations come from the same line of the script, whatever their
    arguments or receivers. *)
Definition same_site (o1 o2 : op pyobj) : bool :=
  match o1, o2 with
  | Import_data_processing, Import_data_processing
  | Import_model_training, Import_model_training
  | New_DataProcessing _, New_DataProcessing _
  | Run_data_processor _, Run_data_processor _
  | New_Model_Training, New_Model_Training
  | Run_trainer _, Run_trainer _ => true
  | _, _ => false
  end.

(** The log entry is control being handed over at the site of [o]. *)
Definition calls_site (o : op pyobj) (ev : event pyobj) : bool :=
  match ev with
  | Call o' => same_site o o'
  | _ => false
  end.

Definition is_raise (ev : event pyobj) : bool :=
  match ev with
  | Raised _ _ => true
  | _ => false
  end.

End Sites.

(** ** Two environments that differ in what [DataProcessing.run] returns *)

(** Everything the collaborators do is the same in [env1] and [env2],
    the world [DataProcessing.run] leaves and whether it raises included;
    only the value it returns may differ. *)
Definition agree_but_run_value {world pyobj : Type}
    (env1 env2 : Collaborators world pyobj) : Prop :=
  (forall w, import_data_processing env1 w = import_data_processing env2 w) /\
  (forall w, import_model_training env1 w = import_model_training env2 w) /\
  (forall p w, DataProcessing env1 p w = DataProcessing env2 p w) /\
  (forall w, Model_Training env1 w = Model_Training env2 w) /\
  (forall o w, Model_Training_run env1 o w = Model_Training_run env2 o w) /\
  (forall o w,
     fst (DataProcessing_run env1 o w) = fst (DataProcessing_run env2 o w) /\
     match snd (DataProcessing_run env1 o w), snd (DataProcessing_run env2 o w) with
     | inr _, inr _ => True
     | inl e1, inl e2 => e1 = e2
     | _, _ => False
     end).

(** ** The failure model as the specification words it

    Whatever exception comes out of either [run] is the exception the
    module ends with, and the process status is not zero. *)
Definition propagates_with_nonzero_status {world pyobj : Type}
    (env : Collaborators world pyobj) (name : string) (w : world) : Prop :=
  forall o e,
    is_run o = true ->
    In (Raised o e) (trace_of env name w) ->
    result_of env name w = inl e /\
    exit_status (result_of env name w) <> 0%Z.

(** ** Sample collaborators

    The world is a journal of what was done to it; objects are numbered. *)
Module Sample.

Definition world : Type := list string.
Definition pyobj : Type := nat.

Definition does (what : string) (v : pyobj) : world -> outcome world pyobj :=
  fun w => (w ++ [what], inr v).

Definition fails {A : Type} (what : string) (e : exn) : world -> outcome world A :=
  fun w => (w ++ [what], inl e).

Definition loads (what : string) : world -> outcome world unit :=
  fun w => (w ++ [what], inr tt).

(** Both steps succeed; [run] of the data processor returns [v]. *)
Definition healthy (v : pyobj) : Collaborators world pyobj :=
  {| import_data_processing := loads "load src.data_processing";
     import_model_training := loads "load src.model_training";
     DataProcessing := fun p => does ("open " ++ p) 1;
     DataProcessing_run := fun _ => does "write processed data" v;
     Model_Training := does "new trainer" 2;
     Model_Training_run := fun _ => does "write model" 0 |}.

(** The same, with one operation replaced. *)
Definition with_DataProcessing (f : string -> world -> outcome world pyobj)
    (c : Collaborators world pyobj) : Collaborators world pyobj :=
  {| import_data_processing := import_data_processing c;
     import_model_training := import_model_training c;
     DataProcessing := f;
     DataProcessing_run := DataProcessing_run c;
     Model_Training := Model_Training c;
     Model_Training_run := Model_Training_run c |}.

Definition with_DataProcessing_run (f : pyobj -> world -> outcome world pyobj)
    (c : Collaborators world pyobj) : Collaborators world pyobj :=
  {| import_data_processing := import_data_processing c;
     import_model_training := import_model_training c;
     DataProcessing := DataProcessing c;
     DataProcessing_run := f;
     Model_Training := Model_Training c;
     Model_Training_run := Model_Training_run c |}.

Definition with_Model_Training (f : world -> outcome world pyobj)
    (c : Collaborators world pyobj) : Collaborators world pyobj :=
  {| import_data_processing := import_data_processing c;
     import_model_training := import_model_training c;
     DataProcessing := DataProcessing c;
     DataProcessing_run := DataProcessing_run c;
     Model_Training := f;
     Model_Training_run := Model_Training_run c |}.

Definition no_csv : exn := PyExc "FileNotFoundError" "artifacts/raw/data.csv".

(** The raw file is missing when [run] reads it. *)
Definition missing_csv : Collaborators world pyobj :=
  with_DataProcessing_run (fun _ => fails "read raw data" no_csv) (healthy 0).

(** [run] of the data processor ends with [sys.exit(0)]. *)
Definition exits_cleanly : Collaborators world pyobj :=
  with_DataProcessing_run
    (fun _ => fails "write processed data" (SystemExit (CodeInt 0))) (healthy 0).

(** The constructor of [DataProcessing] rejects its argument. *)
Definition bad_constructor : Collaborators world pyobj :=
  with_DataProcessing (fun _ => fails "check path" (PyExc "TypeError" "path"))
    (healthy 0).

(** The constructor of [Model_Training] fails. *)
Definition no_trainer : Collaborators world pyobj :=
  with_Model_Training (fails "new trainer" (PyExc "RuntimeError" "no config"))
    (healthy 0).

Definition with_import_data_processing (f : world -> outcome world unit)
    (c : Collaborators world pyobj) : Collaborators world pyobj :=
  {| import_data_processing := f;
     import_model_training := import_model_training c;
     DataProcessing := DataProcessing c;
     DataProcessing_run := DataProcessing_run c;
     Model_Training := Model_Training c;
     Model_Training_run := Model_Training_run c |}.

Definition with_Model_Training_run (f : pyobj -> world -> outcome world pyobj)
    (c : Collaborators world pyobj) : Collaborators world pyobj :=
  {| import_data_processing := import_data_processing c;
     import_model_training := import_model_training c;
     DataProcessing := DataProcessing c;
     DataProcessing_run := DataProcessing_run c;
     Model_Training := Model_Training c;
     Model_Training_run := f |}.

Definition no_src : exn := PyExc "ModuleNotFoundError" "No module named 'src'".

(** The script is started where the package [src] cannot be found. *)
Definition no_package : Collaborators world pyobj :=
  with_import_data_processing (fails "look up src" no_src) (healthy 0).

Definition bad_fit : exn := PyExc "ValueError" "empty training set".

(** Training itself fails, after it has started writing. *)
Definition training_fails : Collaborators world pyobj :=
  with_Model_Training_run (fun _ => fails "write checkpoint" bad_fit) (healthy 0).

End Sample.

(** ** The executions of the module, case by case

    [Exec env name w t w' r]: started in world [w] with [__name__] bound to
    [name], the module leaves the log [t] and the world [w'] and ends as
    [r].  There is one rule per place where the execution can stop. *)

Section Executions.

Context {world pyobj : Type}.
Variable env : Collaborators world pyobj.

Definition imports_log : list (event pyobj) :=
  [ Call Import_data_processing; Imported Import_data_processing;
    Call Import_model_training; Imported Import_model_training ].

Definition path : string := "artifacts/raw/data.csv".

Inductive Exec (name : string) (w : world) :
    list (event pyobj) -> world -> exn + unit -> Prop :=
| Exec_import_data_processing_raises w1 e :
    import_data_processing env w = (w1, inl e) ->
    Exec name w
      [ Call Import_data_processing; Raised Import_data_processing e ] w1 (inl e)
| Exec_import_model_training_raises w1 w2 e :
    import_data_processing env w = (w1, inr tt) ->
    import_model_training env w1 = (w2, inl e) ->
    Exec name w
      [ Call Import_data_processing; Imported Import_data_processing;
        Call Import_model_training; Raised Import_model_training e ] w2 (inl e)
| Exec_imported w1 w2 :
    name <> "__main__" ->
    import_data_processing env w = (w1, inr tt) ->
    import_model_training env w1 = (w2, inr tt) ->
    Exec name w imports_log w2 (inr tt)
| Exec_DataProcessing_raises w1 w2 w3 e :
    name = "__main__" ->
    import_data_processing env w = (w1, inr tt) ->
    import_model_training env w1 = (w2, inr tt) ->
    DataProcessing env path w2 = (w3, inl e) ->
    Exec name w
      (imports_log ++
       [ Call (New_DataProcessing path); Raised (New_DataProcessing path) e ])
      w3 (inl e)
| Exec_data_processor_run_raises w1 w2 w3 w4 dp e :
    name = "__main__" ->
    import_data_processing env w = (w1, inr tt) ->
    import_model_training env w1 = (w2, inr tt) ->
    DataProcessing env path w2 = (w3, inr dp) ->
    DataProcessing_run env dp w3 = (w4, inl e) ->
    Exec name w
      (imports_log ++
       [ Call (New_DataProcessing path); Returned (New_DataProcessing path) dp;
         Call (Run_data_processor dp); Raised (Run_data_processor dp) e ])
      w4 (inl e)
| Exec_Model_Training_raises w1 w2 w3 w4 w5 dp v e :
    name = "__main__" ->
    import_data_processing env w = (w1, inr tt) ->
    import_model_training env w1 = (w2, inr tt) ->
    DataProcessing env path w2 = (w3, inr dp) ->
    DataProcessing_run env dp w3 = (w4, inr v) ->
    Model_Training env w4 = (w5, inl e) ->
    Exec name w
      (imports_log ++
       [ Call (New_DataProcessing path); Returned (New_DataProcessing path) dp;
         Call (Run_data_processor dp); Returned (Run_data_processor dp) v;
         Call New_Model_Training; Raised New_Model_Training e ])
      w5 (inl e)
| Exec_trainer_run_raises w1 w2 w3 w4 w5 w6 dp v tr e :
    name = "__main__" ->
    import_data_processing env w = (w1, inr tt) ->
    import_model_training env w1 = (w2, inr tt) ->
    DataProcessing env path w2 = (w3, inr dp) ->
    DataProcessing_run env dp w3 = (w4, inr v) ->
    Model_Training env w4 = (w5, inr tr) ->
    Model_Training_run env tr w5 = (w6, inl e) ->
    Exec name w
      (imports_log ++
       [ Call (New_DataProcessing path); Returned (New_DataProcessing path) dp;
         Call (Run_data_processor dp); Returned (Run_data_processor dp) v;
         Call New_Model_Training; Returned New_Model_Training tr;
         Call (Run_trainer tr); Raised (Run_trainer tr) e ])
      w6 (inl e)
| Exec_done w1 w2 w3 w4 w5 w6 dp v tr v' :
    name = "__main__" ->
    import_data_processing env w = (w1, inr tt) ->
    import_model_training env w1 = (w2, inr tt) ->
    DataProcessing env path w2 = (w3, inr dp) ->
    DataProcessing_run env dp w3 = (w4, inr v) ->
    Model_Training env w4 = (w5, inr tr) ->
    Model_Training_run env tr w5 = (w6, inr v') ->
    Exec name w
      (imports_log ++
       [ Call (New_DataProcessing path); Returned (New_DataProcessing path) dp;
         Call (Run_data_processor dp); Returned (Run_data_processor dp) v;
         Call New_Model_Training; Returned New_Model_Training tr;
         Call (Run_trainer tr); Returned (Run_trainer tr) v' ])
      w6 (inr tt).

End Executions.

(** Concrete runs. *)
Example healthy_trace :
  trace_of (Sample.healthy 5) "__main__" [] =
  [ Call Import_data_processing; Imported Import_data_processing;
    Call Import_model_training; Imported Import_model_training;
    Call (New_DataProcessing "artifacts/raw/data.csv");
    Returned (New_DataProcessing "artifacts/raw/data.csv") 1;
    Call (Run_data_processor 1); Returned (Run_data_processor 1) 5;
    Call New_Model_Training; Returned New_Model_Training 2;
    Call (Run_trainer 2); Returned (Run_trainer 2) 0 ].
Proof. reflexivity. Qed.

Example healthy_world :
  world_of (Sample.healthy 5) "__main__" [] =
  [ "load src.data_processing"; "load src.model_training";
    "open artifacts/raw/data.csv"; "write processed data";
    "new trainer"; "write model" ].
Proof. reflexivity. Qed.

Example missing_csv_run :
  trace_of Sample.missing_csv "__main__" [] =
  [ Call Import_data_processing; Imported Import_data_processing;
    Call Import_model_training; Imported Import_model_training;
    Call (New_DataProcessing "artifacts/raw/data.csv");
    Returned (New_DataProcessing "artifacts/raw/data.csv") 1;
    Call (Run_data_processor 1); Raised (Run_data_processor 1) Sample.no_csv ] /\
  result_of Sample.missing_csv "__main__" [] = inl Sample.no_csv /\
  exit_status (result_of Sample.missing_csv "__main__" []) = 1%Z.
Proof. repeat split. Qed.

Example imported_only :
  trace_of (Sample.healthy 5) "pipeline.training_pipeline" [] =
  [ Call Import_data_processing; Imported Import_data_processing;
    Call Import_model_training; Imported Import_model_training ].
Proof. reflexivity. Qed.

(** The exit status on the codes that do not fit a status byte, and on an
    interrupt. *)
Example exit_status_wraps :
  @exit_status unit (inl (SystemExit (CodeInt 256))) = 0%Z /\
  @exit_status unit (inl (SystemExit (CodeInt (-1)))) = 255%Z /\
  @exit_status unit (inl (SystemExit (CodeInt (2 ^ 64)))) = 255%Z /\
  @exit_status unit (inl (SystemExit (CodeInt 3))) = 3%Z /\
  @exit_status unit (inl (SystemExit CodeNone)) = 0%Z /\
  @exit_status unit (inl (SystemExit (CodeObject "stop"))) = 1%Z.
Proof. repeat split. Qed.

Example interrupt_ends_by_signal :
  @termination_of unit (inl (PyExc "KeyboardInterrupt" "")) = Killed_by 2 /\
  @exit_status unit (inl (PyExc "KeyboardInterrupt" "")) = 130%Z.
Proof. split; reflexivity. Qed.

(** ** The module runs as [Exec] says *)

Section Soundness.

Context {world pyobj : Type}.
Variable env : Collaborators world pyobj.

(** One operation of the environment, looked at through [perform]. *)
Lemma perform_raises {A : Type} (o : op pyobj) (done : A -> event pyobj)
    (f : world -> outcome world A) (s : state world pyobj) w' e :
  f (st_world s) = (w', inl e) ->
  perform o done f s =
  ({| st_world := w'; st_trace := st_trace s ++ [Call o; Raised o e] |}, inl e).
Proof. intros Hf. unfold perform. rewrite Hf. reflexivity. Qed.

Lemma perform_returns {A : Type} (o : op pyobj) (done : A -> event pyobj)
    (f : world -> outcome world A) (s : state world pyobj) w' a :
  f (st_world s) = (w', inr a) ->
  perform o done f s =
  ({| st_world := w'; st_trace := st_trace s ++ [Call o; done a] |}, inr a).
Proof. intros Hf. unfold perform. rewrite Hf. reflexivity. Qed.

Lemma execute_Exec (name : string) (w : world) :
  Exec env name w (trace_of env name w) (world_of env name w) (result_of env name w).
Proof.
  unfold trace_of, world_of, result_of, execute, training_pipeline, import_, bind.
  destruct (import_data_processing env w) as [w1 [e|[]]] eqn:H1.
  { erewrite perform_raises by exact H1. cbn.
    now apply Exec_import_data_processing_raises. }
  erewrite perform_returns by exact H1. cbn [st_world st_trace].
  destruct (import_model_training env w1) as [w2 [e|[]]] eqn:H2.
  { erewrite perform_raises by exact H2. cbn.
    eapply Exec_import_model_training_raises; eassumption. }
  erewrite perform_returns by exact H2. cbn [st_world st_trace app].
  destruct (String.eqb_spec name "__main__") as [Hn|Hn]; cbn [fst snd].
  2:{ cbn. eapply Exec_imported; eassumption. }
  unfold main_block, call, bind.
  destruct (DataProcessing env path w2) as [w3 [e|dp]] eqn:H3.
  { erewrite perform_raises by exact H3. cbn. eapply Exec_DataProcessing_raises; eassumption. }
  erewrite perform_returns by exact H3. cbn [st_world st_trace app].
  destruct (DataProcessing_run env dp w3) as [w4 [e|v]] eqn:H4.
  { erewrite perform_raises by exact H4. cbn.
    eapply Exec_data_processor_run_raises; eassumption. }
  erewrite perform_returns by exact H4. cbn [st_world st_trace app].
  destruct (Model_Training env w4) as [w5 [e|tr]] eqn:H5.
  { erewrite perform_raises by exact H5. cbn.
    eapply Exec_Model_Training_raises; eassumption. }
  erewrite perform_returns by exact H5. cbn [st_world st_trace app].
  destruct (Model_Training_run env tr w5) as [w6 [e|v']] eqn:H6.
  { erewrite perform_raises by exact H6. cbn.
    eapply Exec_trainer_run_raises; eassumption. }
  erewrite perform_returns by exact H6. cbn.
  eapply Exec_done; eassumption.
Qed.

End Soundness.

(** ** Facts about logs and about [Exec] *)

Section LogFacts.

Context {pyobj : Type}.
Implicit Types (p q : event pyobj -> bool) (t pre post : list (event pyobj)).

Lemma guarded_by_before p q t :
  guarded_by p q t = true ->
  forall pre ev post, t = pre ++ ev :: post -> q ev = true -> existsb p pre = true.
Proof.
  induction t as [|a t IH]; intros G pre ev post E Hq.
  - destruct pre; discriminate E.
  - cbn in G. destruct pre as [|b pre]; cbn in E; injection E as -> ->.
    + rewrite Hq in G. discriminate G.
    + cbn. destruct (q b); [discriminate G|].
      destruct (p b); [reflexivity|].
      cbn. eapply IH; eauto.
Qed.

End LogFacts.

Section ExecFacts.

Context {world pyobj : Type}.
Variable env : Collaborators world pyobj.

(** An execution is determined by the environment, the name and the
    starting world. *)
Lemma Exec_functional name w t1 w1 r1 t2 w2 r2 :
  Exec env name w t1 w1 r1 -> Exec env name w t2 w2 r2 ->
  t1 = t2 /\ w1 = w2 /\ r1 = r2.
Proof.
  intros E1 E2.
  destruct E1; destruct E2;
    repeat match goal with
      | H : ?x = (_, _), H' : ?x = (_, _) |- _ =>
          rewrite H in H'; injection H' as; subst
      end;
    try discriminate; try contradiction; auto.
Qed.

(** [Exec] says exactly what [execute] computes. *)
Lemma Exec_execute name w t w' r :
  Exec env name w t w' r ->
  t = trace_of env name w /\ w' = world_of env name w /\ r = result_of env name w.
Proof. intros E. exact (Exec_functional _ _ _ _ _ _ _ _ E (execute_Exec env name w)). Qed.

End ExecFacts.

(** ** Properties of the runner *)

Section Properties.

Context {world pyobj : Type}.
Variable env : Collaborators world pyobj.

(** Replace the log, world and result of an execution by the case that
    produced them. *)
Ltac cases_of name w :=
  let E := fresh "E" in
  pose proof (execute_Exec env name w) as E;
  unfold result_of, world_of, trace_of in *;
  destruct (execute env name w) as [[w' t] r];
  cbn [fst snd st_trace st_world] in *;
  destruct E; unfold imports_log, path in *; cbn [app] in *.

Ltac in_log :=
  cbn [In] in *; intuition (try discriminate; try congruence).

(** C1. Run as the entry point, the script passes the constructor of
    [DataProcessing] the literal ["artifacts/raw/data.csv"] and nothing
    else: any constructor call in the log has that argument, and once both
    imports have succeeded the log holds exactly one constructor call, with
    that argument. *)
Theorem DataProcessing_gets_literal_path (w : world) (p : string) :
  (In (Call (New_DataProcessing p)) (trace_of env "__main__" w) ->
   p = "artifacts/raw/data.csv") /\
  (In (Imported Import_model_training) (trace_of env "__main__" w) ->
   filter calls_DataProcessing (trace_of env "__main__" w) =
   [Call (New_DataProcessing "artifacts/raw/data.csv")]).
Proof.
  cases_of "__main__" w; split; intros Hin;
    try reflexivity; try congruence; in_log.
Qed.

(** C2. In every execution, whenever the log shows [Model_Training]
    being instantiated or the trainer's [run] being entered, an earlier
    entry of the log is the return of [data_processor.run()]. *)
Theorem training_after_data_processing (name : string) (w : world)
    (pre post : list (event pyobj)) (ev : event pyobj) :
  trace_of env name w = pre ++ ev :: post ->
  starts_training ev = true ->
  exists self v, In (Returned (Run_data_processor self) v) pre.
Proof.
  intros Hsplit Hstart.
  assert (G : guarded_by data_processor_run_returned starts_training
                (trace_of env name w) = true).
  { cases_of name w; reflexivity. }
  pose proof (guarded_by_before _ _ _ G _ _ _ Hsplit Hstart) as Hex.
  apply existsb_exists in Hex. destruct Hex as [x [Hx Hret]].
  destruct x as [o|o v|o|o e]; try discriminate Hret.
  destruct o; try discriminate Hret.
  eauto.
Qed.

(** C3. Run as the entry point with no exception raised, the log holds
    exactly one call of [data_processor.run()] and exactly one call of
    [trainer.run()]. *)
Theorem each_run_called_once (w : world) :
  result_of env "__main__" w = inr tt ->
  count calls_data_processor_run (trace_of env "__main__" w) = 1 /\
  count calls_trainer_run (trace_of env "__main__" w) = 1.
Proof.
  intros Hok. cases_of "__main__" w; try discriminate Hok.
  - congruence.
  - split; reflexivity.
Qed.

(** C4. When [data_processor.run()] raises [e], no entry of the log
    concerns [Model_Training] (neither its constructor nor its [run]), and
    the script ends with [e]. *)
Theorem data_processing_failure_stops_pipeline (name : string) (w : world)
    (self : pyobj) (e : exn) :
  In (Raised (Run_data_processor self) e) (trace_of env name w) ->
  (forall ev, In ev (trace_of env name w) -> on_training (op_of ev) = false) /\
  result_of env name w = inl e.
Proof.
  intros Hin. cases_of name w; try solve [exfalso; in_log].
  split.
  - intros ev Hev. cbn [In] in Hev.
    repeat (destruct Hev as [<-|Hev]; [reflexivity|]). contradiction.
  - in_log.
Qed.

(** C5, as amended. An exception [e] raised by either [run] is the
    exception the script ends with, and the raise is the last entry of the
    log: nothing catches it, and no [run] is called a second time.  The
    exit status is not zero when [e] is not [SystemExit]. *)
Theorem run_failure_propagates (name : string) (w : world)
    (o : op pyobj) (e : exn) :
  is_run o = true ->
  In (Raised o e) (trace_of env name w) ->
  result_of env name w = inl e /\
  (exists pre, trace_of env name w = pre ++ [Raised o e]) /\
  count calls_data_processor_run (trace_of env name w) = 1 /\
  count calls_trainer_run (trace_of env name w) <= 1 /\
  (is_SystemExit e = false -> exit_status (result_of env name w) <> 0%Z).
Proof.
  intros Hrun Hin.
  assert (Hstatus : is_SystemExit e = false -> @exit_status unit (inl e) <> 0%Z).
  { destruct e as [c|cls msg]; intros Hse; [discriminate Hse|].
    unfold exit_status; cbn.
    destruct (String.eqb cls "KeyboardInterrupt"); cbn; unfold SIGINT; lia. }
  cases_of name w; destruct o; try discriminate Hrun;
    try solve [exfalso; in_log].
  - assert (dp = self /\ e0 = e) as [-> ->] by in_log.
    repeat split; try (cbn; lia); [|exact Hstatus].
    eexists (_ :: _ :: _ :: _ :: _ :: _ :: _ :: nil). reflexivity.
  - assert (tr = self /\ e0 = e) as [-> ->] by in_log.
    repeat split; try (cbn; lia); [|exact Hstatus].
    eexists (_ :: _ :: _ :: _ :: _ :: _ :: _ :: _ :: _ :: _ :: _ :: nil).
    reflexivity.
Qed.

(** C6. When both [run] calls return, the script ends normally with exit
    status zero, and the return of [trainer.run()] is the last entry of the
    log: the world is the one that call left. *)
Theorem success_exits_zero (name : string) (w : world)
    (dp tr v v' : pyobj) :
  In (Returned (Run_data_processor dp) v) (trace_of env name w) ->
  In (Returned (Run_trainer tr) v') (trace_of env name w) ->
  result_of env name w = inr tt /\
  exit_status (result_of env name w) = 0%Z /\
  (exists pre, trace_of env name w = pre ++ [Returned (Run_trainer tr) v']) /\
  (exists w5, Model_Training_run env tr w5 = (world_of env name w, inr v')).
Proof.
  intros Hdp Htr.
  cases_of name w; try solve [exfalso; in_log].
  assert (tr0 = tr /\ v'0 = v') as [-> ->] by in_log.
  repeat split.
  - eexists (_ :: _ :: _ :: _ :: _ :: _ :: _ :: _ :: _ :: _ :: _ :: nil).
    reflexivity.
  - eauto.
Qed.

(** C7. With [__name__] other than ["__main__"] the log holds the two
    imports and nothing else: neither class is instantiated and neither
    [run] is called, and the module ends normally unless an import raised.
    Hence a constructor or [run] entry in the log means the name was
    ["__main__"]. *)
Theorem guard_skips_block_on_import (name : string) (w : world) :
  name <> "__main__" ->
  (forall ev, In ev (trace_of env name w) -> is_import (op_of ev) = true) /\
  (In (Imported Import_model_training) (trace_of env name w) ->
   result_of env name w = inr tt).
Proof.
  intros Hname. cases_of name w; try contradiction; split;
    try solve [intros ev Hev; cbn [In] in Hev;
               repeat (destruct Hev as [<-|Hev]; [reflexivity|]); contradiction];
    try reflexivity; intros Hin; exfalso; in_log.
Qed.

(** C9. When the constructor of [DataProcessing] raises [e], the log
    holds no call of either [run] and no entry about [Model_Training], and
    the script ends with [e]. *)
Theorem constructor_failure_stops_pipeline (name : string) (w : world)
    (p : string) (e : exn) :
  In (Raised (New_DataProcessing p) e) (trace_of env name w) ->
  (forall ev, In ev (trace_of env name w) ->
     is_run (op_of ev) = false /\ on_training (op_of ev) = false) /\
  result_of env name w = inl e.
Proof.
  intros Hin. cases_of name w; try solve [exfalso; in_log].
  split.
  - intros ev Hev. cbn [In] in Hev.
    repeat (destruct Hev as [<-|Hev]; [split; reflexivity|]). contradiction.
  - in_log.
Qed.

(** C10. When the constructor of [Model_Training] raises [e], the log
    holds no call of [trainer.run()], the script ends with [e], and the
    raise is the last entry of a log in which [data_processor.run()] has
    already returned; the world the script leaves is the one that
    constructor left, started from the world [data_processor.run()] left:
    nothing of the first step is undone. *)
Theorem trainer_constructor_failure_keeps_processing (name : string) (w : world)
    (e : exn) :
  In (Raised New_Model_Training e) (trace_of env name w) ->
  count calls_trainer_run (trace_of env name w) = 0 /\
  result_of env name w = inl e /\
  exists pre self v w3 w4,
    trace_of env name w = pre ++ [Call New_Model_Training; Raised New_Model_Training e] /\
    In (Returned (Run_data_processor self) v) pre /\
    DataProcessing_run env self w3 = (w4, inr v) /\
    Model_Training env w4 = (world_of env name w, inl e).
Proof.
  intros Hin. cases_of name w; try solve [exfalso; in_log].
  assert (e0 = e) as -> by in_log.
  repeat split.
  eexists (_ :: _ :: _ :: _ :: _ :: _ :: _ :: _ :: nil), dp, v, w3, w4.
  repeat split; try eassumption.
  cbn. tauto.
Qed.

End Properties.

(** ** The value returned by [DataProcessing.run] is not used *)

Section ReturnValue.

Context {world pyobj : Type}.
Variables env1 env2 : Collaborators world pyobj.
Hypothesis agree : agree_but_run_value env1 env2.

(** An execution with [env1] is matched, case for case, by one with
    [env2] that leaves the same world and result, and the same log after
    the return of [data_processor.run()]. *)
Lemma Exec_agree name w t w' r :
  Exec env1 name w t w' r ->
  exists t2,
    Exec env2 name w t2 w' r /\
    after_data_processor_run t2 = after_data_processor_run t.
Proof.
  destruct agree as (A1 & A2 & A3 & A4 & A5 & A6).
  intros E; destruct E;
    repeat match goal with
      | H : import_data_processing env1 _ = _ |- _ => rewrite A1 in H
      | H : import_model_training env1 _ = _ |- _ => rewrite A2 in H
      | H : DataProcessing env1 _ _ = _ |- _ => rewrite A3 in H
      | H : Model_Training env1 _ = _ |- _ => rewrite A4 in H
      | H : Model_Training_run env1 _ _ = _ |- _ => rewrite A5 in H
      | H : DataProcessing_run env1 ?o ?w = _ |- _ =>
          let Hw := fresh "Hw" in
          let Hv := fresh "Hv" in
          destruct (A6 o w) as [Hw Hv];
          rewrite H in Hw, Hv; clear H;
          destruct (DataProcessing_run env2 o w) as [? [?|?]] eqn:?;
          cbn [fst snd] in Hw, Hv; try contradiction; subst
      end.
  - eexists; split; [eapply Exec_import_data_processing_raises; first [eassumption|reflexivity] | reflexivity].
  - eexists; split; [eapply Exec_import_model_training_raises; first [eassumption|reflexivity] | reflexivity].
  - eexists; split; [eapply Exec_imported; first [eassumption|reflexivity] | reflexivity].
  - eexists; split; [eapply Exec_DataProcessing_raises; first [eassumption|reflexivity] | reflexivity].
  - eexists; split; [eapply Exec_data_processor_run_raises; first [eassumption|reflexivity] | reflexivity].
  - eexists; split; [eapply Exec_Model_Training_raises; first [eassumption|reflexivity] | reflexivity].
  - eexists; split; [eapply Exec_trainer_run_raises; first [eassumption|reflexivity] | reflexivity].
  - eexists; split; [eapply Exec_done; first [eassumption|reflexivity] | reflexivity].
Qed.


End ReturnValue.

(** ** Concrete executions *)

Ltac found := cbn; repeat ((left; reflexivity) || right).

Lemma DataProcessing_gets_literal_path_witness :
  In (Call (New_DataProcessing "artifacts/raw/data.csv"))
     (trace_of (Sample.healthy 5) "__main__" []) /\
  In (Imported Import_model_training)
     (trace_of (Sample.healthy 5) "__main__" []) /\
  "artifacts/raw/data.csv" = "artifacts/raw/data.csv" /\
  filter calls_DataProcessing (trace_of (Sample.healthy 5) "__main__" []) =
  [Call (New_DataProcessing "artifacts/raw/data.csv")].
Proof.
  pose proof (DataProcessing_gets_literal_path (Sample.healthy 5) []
                "artifacts/raw/data.csv") as [H1 H2].
  assert (I1 : In (Call (New_DataProcessing "artifacts/raw/data.csv"))
                 (trace_of (Sample.healthy 5) "__main__" [])) by found.
  assert (I2 : In (Imported Import_model_training)
                 (trace_of (Sample.healthy 5) "__main__" [])) by found.
  exact (conj I1 (conj I2 (conj (H1 I1) (H2 I2)))).
Defined.

Lemma training_after_data_processing_witness :
  exists self v,
    In (Returned (Run_data_processor self) v)
       [ Call Import_data_processing; Imported Import_data_processing;
         Call Import_model_training; Imported Import_model_training;
         Call (New_DataProcessing "artifacts/raw/data.csv");
         Returned (New_DataProcessing "artifacts/raw/data.csv") 1;
         Call (Run_data_processor 1); Returned (Run_data_processor 1) 5 ].
Proof.
  apply (training_after_data_processing (Sample.healthy 5) "__main__" [] _
           [ Returned New_Model_Training 2;
             Call (Run_trainer 2); Returned (Run_trainer 2) 0 ]
           (Call New_Model_Training)); reflexivity.
Defined.

Lemma each_run_called_once_witness :
  result_of (Sample.healthy 5) "__main__" [] = inr tt /\
  count calls_data_processor_run (trace_of (Sample.healthy 5) "__main__" []) = 1 /\
  count calls_trainer_run (trace_of (Sample.healthy 5) "__main__" []) = 1.
Proof.
  split; [reflexivity | apply each_run_called_once; reflexivity].
Defined.

Lemma data_processing_failure_stops_pipeline_witness :
  In (Raised (Run_data_processor 1) Sample.no_csv)
     (trace_of Sample.missing_csv "__main__" []) /\
  (forall ev, In ev (trace_of Sample.missing_csv "__main__" []) ->
     on_training (op_of ev) = false) /\
  result_of Sample.missing_csv "__main__" [] = inl Sample.no_csv.
Proof.
  split; [found | apply (data_processing_failure_stops_pipeline _ _ _ 1); found].
Defined.

(** C5 as the specification words it fails when [run] ends the process
    with [sys.exit(0)]: the exception reaches the top unchanged, and the
    exit status is zero. *)
Lemma sys_exit_zero_status :
  ~ propagates_with_nonzero_status Sample.exits_cleanly "__main__" [].
Proof.
  intros H.
  destruct (H (Run_data_processor 1) (SystemExit (CodeInt 0)) eq_refl) as [_ Hs].
  - found.
  - apply Hs. reflexivity.
Qed.

Lemma run_failure_propagates_witness :
  is_run (Run_data_processor 1) = true /\
  In (Raised (Run_data_processor 1) Sample.no_csv)
     (trace_of Sample.missing_csv "__main__" []) /\
  is_SystemExit Sample.no_csv = false /\
  result_of Sample.missing_csv "__main__" [] = inl Sample.no_csv /\
  exit_status (result_of Sample.missing_csv "__main__" []) <> 0%Z.
Proof.
  assert (I : In (Raised (Run_data_processor 1) Sample.no_csv)
                (trace_of Sample.missing_csv "__main__" [])) by found.
  destruct (run_failure_propagates Sample.missing_csv "__main__" []
              (Run_data_processor 1) Sample.no_csv eq_refl I)
    as (Hr & _ & _ & _ & Hs).
  exact (conj eq_refl (conj I (conj eq_refl (conj Hr (Hs eq_refl))))).
Defined.

Lemma success_exits_zero_witness :
  In (Returned (Run_data_processor 1) 5)
     (trace_of (Sample.healthy 5) "__main__" []) /\
  In (Returned (Run_trainer 2) 0)
     (trace_of (Sample.healthy 5) "__main__" []) /\
  exit_status (result_of (Sample.healthy 5) "__main__" []) = 0%Z.
Proof.
  assert (I1 : In (Returned (Run_data_processor 1) 5)
                 (trace_of (Sample.healthy 5) "__main__" [])) by found.
  assert (I2 : In (Returned (Run_trainer 2) 0)
                 (trace_of (Sample.healthy 5) "__main__" [])) by found.
  destruct (success_exits_zero (Sample.healthy 5) "__main__" [] 1 2 5 0 I1 I2)
    as (_ & Hs & _).
  exact (conj I1 (conj I2 Hs)).
Defined.

Lemma guard_skips_block_on_import_witness :
  "pipeline.training_pipeline" <> "__main__" /\
  (forall ev,
     In ev (trace_of (Sample.healthy 5) "pipeline.training_pipeline" []) ->
     is_import (op_of ev) = true).
Proof.
  assert (N : "pipeline.training_pipeline" <> "__main__") by discriminate.
  exact (conj N (proj1 (guard_skips_block_on_import (Sample.healthy 5)
                          "pipeline.training_pipeline" [] N))).
Defined.


Lemma constructor_failure_stops_pipeline_witness :
  In (Raised (New_DataProcessing "artifacts/raw/data.csv") (PyExc "TypeError" "path"))
     (trace_of Sample.bad_constructor "__main__" []) /\
  result_of Sample.bad_constructor "__main__" [] = inl (PyExc "TypeError" "path").
Proof.
  assert (I : In (Raised (New_DataProcessing "artifacts/raw/data.csv")
                    (PyExc "TypeError" "path"))
                (trace_of Sample.bad_constructor "__main__" [])) by found.
  exact (conj I (proj2 (constructor_failure_stops_pipeline _ _ _ _ _ I))).
Defined.

Lemma trainer_constructor_failure_keeps_processing_witness :
  In (Raised New_Model_Training (PyExc "RuntimeError" "no config"))
     (trace_of Sample.no_trainer "__main__" []) /\
  count calls_trainer_run (trace_of Sample.no_trainer "__main__" []) = 0 /\
  result_of Sample.no_trainer "__main__" [] = inl (PyExc "RuntimeError" "no config").
Proof.
  assert (I : In (Raised New_Model_Training (PyExc "RuntimeError" "no config"))
                (trace_of Sample.no_trainer "__main__" [])) by found.
  destruct (trainer_constructor_failure_keeps_processing _ _ _ _ I) as (Hc & Hr & _).
  exact (conj I (conj Hc Hr)).
Defined.

(** ** Further properties of the runner *)

Section Further.

Context {world pyobj : Type}.
Variable env : Collaborators world pyobj.

Ltac run_cases name w :=
  let E := fresh "E" in
  pose proof (execute_Exec env name w) as E;
  unfold result_of, world_of, trace_of in *;
  destruct (execute env name w) as [[? ?] ?];
  cbn [fst snd st_trace st_world] in *;
  destruct E; unfold imports_log, path in *; cbn [app] in *.

Ltac absurd_entry :=
  exfalso; cbn [In] in *; intuition (try discriminate; try congruence).

Ltac each_entry Hev tac :=
  cbn [In] in Hev; repeat (destruct Hev as [<-|Hev]; [tac|]); contradiction.

(** X1. When an import statement raises [e] (lines 1 and 2), whatever
    [__name__] is: the log holds import entries only, so that neither class
    is instantiated and no [run] is called, and the script ends with [e].
    When it is the first import that raises, the second is not attempted. *)
Theorem import_failure_stops_everything (name : string) (w : world)
    (o : op pyobj) (e : exn) :
  is_import o = true ->
  In (Raised o e) (trace_of env name w) ->
  (forall ev, In ev (trace_of env name w) -> is_import (op_of ev) = true) /\
  result_of env name w = inl e /\
  (o = Import_data_processing ->
   trace_of env name w = [Call Import_data_processing; Raised Import_data_processing e]).
Proof.
  intros Himp Hin.
  run_cases name w; destruct o; try discriminate Himp; try solve [absurd_entry].
  - assert (e0 = e) as -> by (cbn [In] in Hin; intuition congruence).
    repeat split. intros ev Hev. each_entry Hev reflexivity.
  - assert (e0 = e) as -> by (cbn [In] in Hin; intuition congruence).
    repeat split.
    + intros ev Hev. each_entry Hev reflexivity.
    + discriminate.
Qed.

(** X2. A [run] is only ever called on the object its constructor
    returned: the receiver of [data_processor.run()] is what
    [DataProcessing("artifacts/raw/data.csv")] returned (lines 5-6), and the
    receiver of [trainer.run()] is what [Model_Training()] returned (lines
    8-9). *)
Theorem run_receiver_is_constructed (name : string) (w : world) (self : pyobj) :
  (In (Call (Run_data_processor self)) (trace_of env name w) ->
   In (Returned (New_DataProcessing "artifacts/raw/data.csv") self)
      (trace_of env name w)) /\
  (In (Call (Run_trainer self)) (trace_of env name w) ->
   In (Returned New_Model_Training self) (trace_of env name w)).
Proof.
  run_cases name w; split; intros Hin; try solve [absurd_entry];
    cbn [In] in Hin;
    repeat (destruct Hin as [Hin|Hin]; try discriminate Hin);
    try contradiction;
    inversion Hin; subst;
    cbn [In]; repeat ((left; reflexivity) || right).
Qed.

(** X3. The script ends with exception [e] exactly when one of the six
    operations raised [e]: it swallows no exception of any of them, and
    raises none of its own. *)
Theorem failure_iff_raise (name : string) (w : world) (e : exn) :
  result_of env name w = inl e <->
  exists o, In (Raised o e) (trace_of env name w).
Proof.
  run_cases name w; split;
    try (intros [o Hin]; try solve [absurd_entry];
         cbn [In] in Hin; intuition congruence);
    intros Hr; try discriminate Hr; injection Hr as ->;
    eexists; cbn [In]; repeat ((left; reflexivity) || right).
Qed.

(** X4. A raise is the last thing the script does: the raising entry is
    the last entry of the log, and no entry before it is a raise. *)
Theorem raise_is_last (name : string) (w : world) (o : op pyobj) (e : exn) :
  In (Raised o e) (trace_of env name w) ->
  exists pre,
    trace_of env name w = pre ++ [Raised o e] /\
    forall ev, In ev pre -> is_raise ev = false.
Proof.
  intros Hin.
  run_cases name w; try solve [absurd_entry];
    match goal with
    | |- exists pre, ?t = _ /\ _ => exists (removelast t)
    end;
    (split;
     [ cbn; cbn [In] in Hin; intuition congruence
     | cbn; intros ev Hev; each_entry Hev reflexivity ]).
Qed.

(** X5. What the import statements do does not depend on [__name__]:
    the log of an execution under any name starts with the whole log of the
    execution under a name other than ["__main__"]; and two names other
    than ["__main__"] give the same execution. *)
Theorem imports_ignore_name (name other : string) (w : world) :
  other <> "__main__" ->
  (exists rest, trace_of env name w = trace_of env other w ++ rest) /\
  (name <> "__main__" -> execute env name w = execute env other w).
Proof.
  intros Hother.
  pose proof (execute_Exec env name w) as E1.
  pose proof (execute_Exec env other w) as E2.
  unfold result_of, world_of, trace_of in *.
  destruct (execute env name w) as [[w1' t1] r1].
  destruct (execute env other w) as [[w2' t2] r2].
  cbn [fst snd st_trace st_world] in *.
  destruct E1; destruct E2; try contradiction;
    repeat match goal with
      | H : ?x = (_, _), H' : ?x = (_, _) |- _ =>
          rewrite H in H'; injection H' as; subst
      end;
    try discriminate;
    (split; [eexists; unfold imports_log; cbn [app]; reflexivity
            | intros Hn; try contradiction; try reflexivity]).
Qed.

(** X6. The two steps communicate through the world only, and do: when
    [Model_Training()] has returned [tr], the execution went from its
    starting world through the two imports, the constructor of
    [DataProcessing] and [data_processor.run()], [Model_Training()] was
    called in the very world that [run] left on return, and the world the
    script ends in is the one [trainer.run()] left after it. *)
Theorem trainer_built_on_processed_world (name : string) (w : world) (tr : pyobj) :
  In (Returned New_Model_Training tr) (trace_of env name w) ->
  exists dp v w1 w2 w3 w4 w5,
    In (Returned (Run_data_processor dp) v) (trace_of env name w) /\
    import_data_processing env w = (w1, inr tt) /\
    import_model_training env w1 = (w2, inr tt) /\
    DataProcessing env "artifacts/raw/data.csv" w2 = (w3, inr dp) /\
    DataProcessing_run env dp w3 = (w4, inr v) /\
    Model_Training env w4 = (w5, inr tr) /\
    world_of env name w = fst (Model_Training_run env tr w5).
Proof.
  intros Hin.
  run_cases name w; try solve [absurd_entry];
    (assert (tr0 = tr) as -> by (cbn [In] in Hin; intuition congruence));
    exists dp, v, w1, w2, w3, w4, w5;
    (split; [cbn [In]; repeat ((left; reflexivity) || right)|]);
    repeat split; try assumption;
    match goal with
    | H : Model_Training_run env _ _ = _ |- _ => rewrite H; reflexivity
    end.
Qed.

(** X7. When [trainer.run()] raises [e] (line 9), both constructors and
    [data_processor.run()] have returned, each called in the world the
    operation before it left, starting from the world the script was
    started in; and the world the script leaves is the one the failed call
    left on top of theirs: what the earlier steps and the failed step
    itself did is not undone. *)
Theorem trainer_run_failure_keeps_work (name : string) (w : world)
    (tr : pyobj) (e : exn) :
  In (Raised (Run_trainer tr) e) (trace_of env name w) ->
  exists dp v w1 w2 w3 w4 w5,
    In (Returned (New_DataProcessing "artifacts/raw/data.csv") dp)
       (trace_of env name w) /\
    In (Returned (Run_data_processor dp) v) (trace_of env name w) /\
    In (Returned New_Model_Training tr) (trace_of env name w) /\
    import_data_processing env w = (w1, inr tt) /\
    import_model_training env w1 = (w2, inr tt) /\
    DataProcessing env "artifacts/raw/data.csv" w2 = (w3, inr dp) /\
    DataProcessing_run env dp w3 = (w4, inr v) /\
    Model_Training env w4 = (w5, inr tr) /\
    Model_Training_run env tr w5 = (world_of env name w, inl e).
Proof.
  intros Hin.
  run_cases name w; try solve [absurd_entry].
  assert (tr0 = tr /\ e0 = e) as [-> ->] by (cbn [In] in Hin; intuition congruence).
  exists dp, v, w1, w2, w3, w4, w5.
  repeat split; try assumption; cbn [In]; repeat ((left; reflexivity) || right).
Qed.

(** X8. No line of the script is executed twice: for each of the six
    call sites the log holds at most one call. *)
Theorem each_site_called_at_most_once (name : string) (w : world) (o : op pyobj) :
  count (calls_site o) (trace_of env name w) <= 1.
Proof.
  run_cases name w; destruct o; cbn; lia.
Qed.

(** X9. A run as entry point that ends normally has performed the six
    operations once each in the order of the source, each in the world the
    one before it left. *)
Theorem successful_run_log (w : world) :
  result_of env "__main__" w = inr tt ->
  exists dp v tr v' w1 w2 w3 w4 w5,
    trace_of env "__main__" w =
    [ Call Import_data_processing; Imported Import_data_processing;
      Call Import_model_training; Imported Import_model_training;
      Call (New_DataProcessing "artifacts/raw/data.csv");
      Returned (New_DataProcessing "artifacts/raw/data.csv") dp;
      Call (Run_data_processor dp); Returned (Run_data_processor dp) v;
      Call New_Model_Training; Returned New_Model_Training tr;
      Call (Run_trainer tr); Returned (Run_trainer tr) v' ] /\
    import_data_processing env w = (w1, inr tt) /\
    import_model_training env w1 = (w2, inr tt) /\
    DataProcessing env "artifacts/raw/data.csv" w2 = (w3, inr dp) /\
    DataProcessing_run env dp w3 = (w4, inr v) /\
    Model_Training env w4 = (w5, inr tr) /\
    Model_Training_run env tr w5 = (world_of env "__main__" w, inr v').
Proof.
  intros Hok.
  run_cases "__main__" w; try discriminate Hok; try congruence.
  exists dp, v, tr, v', w1, w2, w3, w4, w5. repeat split; assumption.
Qed.

End Further.

(** ** Concrete executions for the further properties *)

Example no_package_run :
  trace_of Sample.no_package "__main__" [] =
  [ Call Import_data_processing; Raised Import_data_processing Sample.no_src ] /\
  world_of Sample.no_package "__main__" [] = [ "look up src" ].
Proof. split; reflexivity. Qed.

Example training_fails_world :
  world_of Sample.training_fails "__main__" [] =
  [ "load src.data_processing"; "load src.model_training";
    "open artifacts/raw/data.csv"; "write processed data";
    "new trainer"; "write checkpoint" ].
Proof. reflexivity. Qed.

Lemma import_failure_stops_everything_witness :
  is_import (@Import_data_processing nat) = true /\
  In (Raised Import_data_processing Sample.no_src)
     (trace_of Sample.no_package "__main__" []) /\
  result_of Sample.no_package "__main__" [] = inl Sample.no_src.
Proof.
  assert (I : In (Raised Import_data_processing Sample.no_src)
                (trace_of Sample.no_package "__main__" [])) by found.
  destruct (import_failure_stops_everything Sample.no_package "__main__" []
              Import_data_processing Sample.no_src eq_refl I) as (_ & Hr & _).
  exact (conj eq_refl (conj I Hr)).
Defined.

Lemma run_receiver_is_constructed_witness :
  In (Call (Run_data_processor 1)) (trace_of (Sample.healthy 5) "__main__" []) /\
  In (Call (Run_trainer 2)) (trace_of (Sample.healthy 5) "__main__" []) /\
  In (Returned (New_DataProcessing "artifacts/raw/data.csv") 1)
     (trace_of (Sample.healthy 5) "__main__" []) /\
  In (Returned New_Model_Training 2) (trace_of (Sample.healthy 5) "__main__" []).
Proof.
  assert (I1 : In (Call (Run_data_processor 1))
                 (trace_of (Sample.healthy 5) "__main__" [])) by found.
  assert (I2 : In (Call (Run_trainer 2))
                 (trace_of (Sample.healthy 5) "__main__" [])) by found.
  exact (conj I1 (conj I2
           (conj (proj1 (run_receiver_is_constructed (Sample.healthy 5) "__main__" [] 1) I1)
                 (proj2 (run_receiver_is_constructed (Sample.healthy 5) "__main__" [] 2) I2)))).
Defined.

Lemma raise_is_last_witness :
  In (Raised (Run_trainer 2) Sample.bad_fit)
     (trace_of Sample.training_fails "__main__" []) /\
  exists pre,
    trace_of Sample.training_fails "__main__" [] =
    pre ++ [Raised (Run_trainer 2) Sample.bad_fit] /\
    forall ev, In ev pre -> is_raise ev = false.
Proof.
  assert (I : In (Raised (Run_trainer 2) Sample.bad_fit)
                (trace_of Sample.training_fails "__main__" [])) by found.
  exact (conj I (raise_is_last Sample.training_fails "__main__" [] _ _ I)).
Defined.

Lemma imports_ignore_name_witness :
  "tests.conftest" <> "__main__" /\
  exists rest,
    trace_of (Sample.healthy 5) "__main__" [] =
    trace_of (Sample.healthy 5) "tests.conftest" [] ++ rest.
Proof.
  assert (N : "tests.conftest" <> "__main__") by discriminate.
  exact (conj N (proj1 (imports_ignore_name (Sample.healthy 5)
                          "__main__" "tests.conftest" [] N))).
Defined.

Lemma trainer_built_on_processed_world_witness :
  In (Returned New_Model_Training 2) (trace_of (Sample.healthy 5) "__main__" []) /\
  exists dp v w1 w2 w3 w4 w5,
    In (Returned (Run_data_processor dp) v)
       (trace_of (Sample.healthy 5) "__main__" []) /\
    import_data_processing (Sample.healthy 5) [] = (w1, inr tt) /\
    import_model_training (Sample.healthy 5) w1 = (w2, inr tt) /\
    DataProcessing (Sample.healthy 5) "artifacts/raw/data.csv" w2 = (w3, inr dp) /\
    DataProcessing_run (Sample.healthy 5) dp w3 = (w4, inr v) /\
    Model_Training (Sample.healthy 5) w4 = (w5, inr 2) /\
    world_of (Sample.healthy 5) "__main__" [] =
    fst (Model_Training_run (Sample.healthy 5) 2 w5).
Proof.
  assert (I : In (Returned New_Model_Training 2)
                (trace_of (Sample.healthy 5) "__main__" [])) by found.
  exact (conj I (trainer_built_on_processed_world (Sample.healthy 5) "__main__" [] 2 I)).
Defined.

Lemma trainer_run_failure_keeps_work_witness :
  In (Raised (Run_trainer 2) Sample.bad_fit)
     (trace_of Sample.training_fails "__main__" []) /\
  exists dp v w1 w2 w3 w4 w5,
    In (Returned (New_DataProcessing "artifacts/raw/data.csv") dp)
       (trace_of Sample.training_fails "__main__" []) /\
    In (Returned (Run_data_processor dp) v)
       (trace_of Sample.training_fails "__main__" []) /\
    In (Returned New_Model_Training 2)
       (trace_of Sample.training_fails "__main__" []) /\
    import_data_processing Sample.training_fails [] = (w1, inr tt) /\
    import_model_training Sample.training_fails w1 = (w2, inr tt) /\
    DataProcessing Sample.training_fails "artifacts/raw/data.csv" w2 = (w3, inr dp) /\
    DataProcessing_run Sample.training_fails dp w3 = (w4, inr v) /\
    Model_Training Sample.training_fails w4 = (w5, inr 2) /\
    Model_Training_run Sample.training_fails 2 w5 =
    (world_of Sample.training_fails "__main__" [], inl Sample.bad_fit).
Proof.
  assert (I : In (Raised (Run_trainer 2) Sample.bad_fit)
                (trace_of Sample.training_fails "__main__" [])) by found.
  exact (conj I (trainer_run_failure_keeps_work Sample.training_fails "__main__" [] _ _ I)).
Defined.

Lemma successful_run_log_witness :
  result_of (Sample.healthy 5) "__main__" [] = inr tt /\
  exists dp v tr v' w1 w2 w3 w4 w5,
    trace_of (Sample.healthy 5) "__main__" [] =
    [ Call Import_data_processing; Imported Import_data_processing;
      Call Import_model_training; Imported Import_model_training;
      Call (New_DataProcessing "artifacts/raw/data.csv");
      Returned (New_DataProcessing "artifacts/raw/data.csv") dp;
      Call (Run_data_processor dp); Returned (Run_data_processor dp) v;
      Call New_Model_Training; Returned New_Model_Training tr;
      Call (Run_trainer tr); Returned (Run_trainer tr) v' ] /\
    import_data_processing (Sample.healthy 5) [] = (w1, inr tt) /\
    import_model_training (Sample.healthy 5) w1 = (w2, inr tt) /\
    DataProcessing (Sample.healthy 5) "artifacts/raw/data.csv" w2 = (w3, inr dp) /\
    DataProcessing_run (Sample.healthy 5) dp w3 = (w4, inr v) /\
    Model_Training (Sample.healthy 5) w4 = (w5, inr tr) /\
    Model_Training_run (Sample.healthy 5) tr w5 =
    (world_of (Sample.healthy 5) "__main__" [], inr v').
Proof.
  exact (conj eq_refl (successful_run_log (Sample.healthy 5) [] eq_refl)).
Defined.
